(** * Liftly front end: the root provider composition

    A shallow embedding of the three provider components of the
    application shell,

      - [MainProvider]   (app/providers, the provider composition),
      - [ReduxProvider]  (app/providers/redux-provider.tsx),
      - [ToastProvider]  (app/providers, the notification surface),

    together with the small part of the React runtime they rely on: JSX
    elements as a tree, the heap of store objects that [makeStore]
    allocates from, and the renderer that calls function components until
    only library and host elements are left. *)

From Stdlib Require Import List String Ascii ZArith Arith Lia.
From Equations Require Import Equations.
Import ListNotations.

Open Scope string_scope.
Open Scope list_scope.

(** ** JSX elements *)

(** A store object is known by its identity: its address in the heap of
    stores.  Two [AppStore] values are the same object iff they are equal. *)
Definition AppStore := nat.

(** The [style] object literal handed to the toast host. *)
Record CSSProperties := {
  background : string;
  color : string;
  border : string;
  padding : string
}.

(** The [toastOptions] object literal. *)
Record ToastOptions := {
  duration : Z;
  style : CSSProperties
}.

(** [ReactNode]: what a component receives as [children] and returns.
    [RProvider] is react-redux's [<Provider store=...>], [RToaster] is
    react-hot-toast's [<Toaster .../>]; the last three constructors are
    elements whose type is one of this repository's function components. *)
Set Warnings "-register-all".
Inductive ReactNode : Type :=
| RNull
| RText (s : string)
| RHost (tag : string) (props : list (string * string)) (children : list ReactNode)
| RFragment (children : list ReactNode)
| RProvider (store : AppStore) (children : ReactNode)
| RToaster (position : string) (toastOptions : ToastOptions)
| RMainProvider (children : ReactNode)
| RReduxProvider (children : ReactNode)
| RToastProvider.

(** Induction over elements that reaches into the child lists. *)
Section ReactNodeInduction.
Variable P : ReactNode -> Prop.
Hypothesis HNull : P RNull.
Hypothesis HText : forall s, P (RText s).
Hypothesis HHost : forall t p cs, Forall P cs -> P (RHost t p cs).
Hypothesis HFragment : forall cs, Forall P cs -> P (RFragment cs).
Hypothesis HProvider : forall st c, P c -> P (RProvider st c).
Hypothesis HToaster : forall p o, P (RToaster p o).
Hypothesis HMain : forall c, P c -> P (RMainProvider c).
Hypothesis HRedux : forall c, P c -> P (RReduxProvider c).
Hypothesis HToast : P RToastProvider.

Fixpoint ReactNode_nested_ind (n : ReactNode) : P n :=
  match n with
  | RNull => HNull
  | RText s => HText s
  | RHost t p cs =>
      HHost t p cs
        ((fix all (l : list ReactNode) : Forall P l :=
            match l with
            | [] => Forall_nil P
            | x :: r => Forall_cons x (ReactNode_nested_ind x) (all r)
            end) cs)
  | RFragment cs =>
      HFragment cs
        ((fix all (l : list ReactNode) : Forall P l :=
            match l with
            | [] => Forall_nil P
            | x :: r => Forall_cons x (ReactNode_nested_ind x) (all r)
            end) cs)
  | RProvider st c => HProvider st c (ReactNode_nested_ind c)
  | RToaster p o => HToaster p o
  | RMainProvider c => HMain c (ReactNode_nested_ind c)
  | RReduxProvider c => HRedux c (ReactNode_nested_ind c)
  | RToastProvider => HToast
  end.
End ReactNodeInduction.

(** ** Measures and observations on element trees *)

(** Termination measure of the renderer: an element whose type is a
    function component weighs more than the element the component returns. *)
Fixpoint weight (n : ReactNode) : nat :=
  match n with
  | RNull | RText _ | RToaster _ _ => 1
  | RHost _ _ cs | RFragment cs =>
      S ((fix weights (l : list ReactNode) : nat :=
            match l with
            | [] => 0
            | x :: r => S (weight x + weights r)
            end) cs)
  | RProvider _ c => S (weight c)
  | RMainProvider c => 10 + weight c
  | RReduxProvider c => 2 + weight c
  | RToastProvider => 4
  end.

Fixpoint weights (l : list ReactNode) : nat :=
  match l with
  | [] => 0
  | x :: r => S (weight x + weights r)
  end.

(** [React.isValidElement]: an element object, as opposed to [null] or a
    bare string. *)
Definition isValidElement (n : ReactNode) : bool :=
  match n with
  | RNull | RText _ => false
  | _ => true
  end.

(** No function component of this repository is left to be called. *)
Fixpoint expanded (n : ReactNode) : bool :=
  match n with
  | RNull | RText _ | RToaster _ _ => true
  | RHost _ _ cs | RFragment cs => forallb expanded cs
  | RProvider _ c => expanded c
  | RMainProvider _ | RReduxProvider _ | RToastProvider => false
  end.

(** How many times rendering [n] runs the body of [ReduxProvider]. *)
Fixpoint redux_renders (n : ReactNode) : nat :=
  match n with
  | RNull | RText _ | RToaster _ _ | RToastProvider => 0
  | RHost _ _ cs | RFragment cs =>
      (fix sum (l : list ReactNode) : nat :=
         match l with
         | [] => 0
         | x :: r => redux_renders x + sum r
         end) cs
  | RProvider _ c => redux_renders c
  | RMainProvider c | RReduxProvider c => S (redux_renders c)
  end.

Fixpoint redux_renders_list (l : list ReactNode) : nat :=
  match l with
  | [] => 0
  | x :: r => redux_renders x + redux_renders_list r
  end.

(** The stores of all [<Provider>] elements of a tree, in document order. *)
Fixpoint providers (n : ReactNode) : list AppStore :=
  match n with
  | RNull | RText _ | RToaster _ _ | RToastProvider => []
  | RHost _ _ cs | RFragment cs => flat_map providers cs
  | RProvider st c => st :: providers c
  | RMainProvider c | RReduxProvider c => providers c
  end.

(** The Toaster hosts of a tree with their configuration, in document order. *)
Fixpoint toasters (n : ReactNode) : list (string * ToastOptions) :=
  match n with
  | RToaster p o => [(p, o)]
  | RHost _ _ cs | RFragment cs => flat_map toasters cs
  | RProvider _ c | RMainProvider c | RReduxProvider c => toasters c
  | RNull | RText _ | RToastProvider => []
  end.

(** All nodes of a tree in document order (parent first, then the children
    from left to right). *)
Fixpoint nodes (n : ReactNode) : list ReactNode :=
  n :: match n with
       | RHost _ _ cs | RFragment cs => flat_map nodes cs
       | RProvider _ c | RMainProvider c | RReduxProvider c => nodes c
       | RNull | RText _ | RToaster _ _ | RToastProvider => []
       end.

(** The direct children of an element. *)
Definition children_of (n : ReactNode) : list ReactNode :=
  match n with
  | RHost _ _ cs | RFragment cs => cs
  | RProvider _ c | RMainProvider c | RReduxProvider c => [c]
  | RNull | RText _ | RToaster _ _ | RToastProvider => []
  end.

(** [enclosing path n] walks from the root of [n] along [path] (child
    indices) and returns the stores of the [<Provider>] elements it passes
    through, outermost first, with the subtree it ends at. *)
Fixpoint enclosing (path : list nat) (n : ReactNode) : option (list AppStore * ReactNode) :=
  match path with
  | [] => Some ([], n)
  | i :: rest =>
      match nth_error (children_of n) i with
      | None => None
      | Some c =>
          match enclosing rest c with
          | None => None
          | Some (sts, sub) =>
              Some (match n with RProvider st _ => st :: sts | _ => sts end, sub)
          end
      end
  end.

(** The subtree a path leads to. *)
Definition subtree_at (path : list nat) (n : ReactNode) : option ReactNode :=
  option_map snd (enclosing path n).

(** The store a [<Provider>] element was given. *)
Definition provided_store (n : ReactNode) : option AppStore :=
  match n with
  | RProvider st _ => Some st
  | _ => None
  end.

(** Work items of the renderer: one element, or the child list of one. *)
Inductive Work :=
| WNode (n : ReactNode)
| WList (l : list ReactNode).

Definition Out (k : Work) : Type :=
  match k with
  | WNode _ => ReactNode
  | WList _ => list ReactNode
  end.

Definition work_weight (k : Work) : nat :=
  match k with
  | WNode n => weight n
  | WList l => weights l
  end.

(** The number of [ReduxProvider] runs a work item takes, and whether the
    outcome of one is fully rendered. *)
Definition redux_renders_work (k : Work) : nat :=
  match k with
  | WNode n => redux_renders n
  | WList l => redux_renders_list l
  end.

Definition expanded_out (k : Work) : Out k -> bool :=
  match k with
  | WNode _ => expanded
  | WList _ => forallb expanded
  end.

(** What a component throws. *)
Definition Error := string.

(** JSX reads a tag that starts with a lower-case letter as an intrinsic
    element ([<div>]); any other tag names a component, here one from
    outside this repository, which React calls when it renders the
    element. *)
Definition intrinsic (tag : string) : bool :=
  match tag with
  | EmptyString => false
  | String a _ =>
      Nat.leb 97 (nat_of_ascii a) && Nat.leb (nat_of_ascii a) 122
  end.

(** Whether rendering an element of type [tag] starts with a call that
    throws: [raises] tells which outside components throw, and what. *)
Definition call_raises (raises : string -> option Error) (tag : string) : option Error :=
  if intrinsic tag then None else raises tag.

(** An instance of [raises]: [Broken] stands for a component of the
    application that throws. *)
Definition broken_raises (tag : string) : option Error :=
  if String.eqb tag "Broken" then Some "boom" else None.

(** How many times rendering [n] runs the body of [ToastProvider]. *)
Fixpoint toast_renders (n : ReactNode) : nat :=
  match n with
  | RNull | RText _ | RToaster _ _ => 0
  | RHost _ _ cs | RFragment cs =>
      (fix sum (l : list ReactNode) : nat :=
         match l with
         | [] => 0
         | x :: r => toast_renders x + sum r
         end) cs
  | RProvider _ c | RReduxProvider c => toast_renders c
  | RMainProvider c => S (toast_renders c)
  | RToastProvider => 1
  end.

Fixpoint toast_renders_list (l : list ReactNode) : nat :=
  match l with
  | [] => 0
  | x :: r => toast_renders x + toast_renders_list r
  end.

Section Providers.

(** The store module ([@/shared/config/store/store]) is not part of the
    sources at hand: the root state, the action type, the reducer and
    the state a new store starts in are parameters. *)
Variable RootState : Type.
Variable Action : Type.
Variable initialState : RootState.
Variable reducer : RootState -> Action -> RootState.

(** ** The heap of stores *)

(** What a store object holds: its current state, and the actions that
    were dispatched into it since it was made. *)
Record StoreCell := {
  getState : RootState;
  dispatched : list Action
}.

(** The stores constructed so far; store [i] lives at index [i]. *)
Definition World := list StoreCell.

Definition initialCell : StoreCell :=
  {| getState := initialState; dispatched := [] |}.

(** Modelled from the spec: [makeStore] is the store factory of the
    missing store module, "producing a store instance": each call
    constructs a new store object, in its initial state. *)
Definition makeStore (w : World) : AppStore * World :=
  (List.length w, w ++ [initialCell]).

(** Modelled from the spec: [store.dispatch(action)] of the missing store
    module, the one way a state container changes: the reducer is run
    and the action is recorded. *)
Definition dispatch (store : AppStore) (a : Action) (w : World) : World :=
  match nth_error w store with
  | None => w
  | Some cell =>
      firstn store w
        ++ {| getState := reducer (getState cell) a;
              dispatched := dispatched cell ++ [a] |}
        :: skipn (S store) w
  end.

(** How many actions have been dispatched, over all stores. *)
Definition actions_dispatched (w : World) : nat :=
  list_sum (map (fun cell => List.length (dispatched cell)) w).

(** ** The components *)

(** toast-provider: [<div><Toaster position=... toastOptions=.../></div>]. *)
Definition ToastProvider : ReactNode :=
  RHost "div" []
    [RToaster "top-center"
       {| duration := 4000;
          style := {| background := "#fff";
                      color := "#333";
                      border := "1px solid #319691";
                      padding := "12px 16px" |} |}].

(** redux-provider.tsx:
    [return <Provider store={makeStore()}>{children}</Provider>;] *)
Definition ReduxProvider (children : ReactNode) (w : World) : ReactNode * World :=
  let '(store, w') := makeStore w in
  (RProvider store children, w').

(** The provider composition:
    [<> <ReduxProvider>{children}</ReduxProvider> <ToastProvider/> </>]. *)
Definition MainProvider (children : ReactNode) : ReactNode :=
  RFragment [RReduxProvider children; RToastProvider].

(** ** The renderer *)

(** Rendering calls the function component of an element and goes on
    with what it returned; host, fragment and library elements are kept
    and their children rendered from left to right.  The world is
    threaded through in the order the components run. *)
Equations? render_work (k : Work) (w : World) : Out k * World
  by wf (work_weight k) lt :=
render_work (WNode RNull) w := (RNull, w);
render_work (WNode (RText s)) w := (RText s, w);
render_work (WNode (RHost t p cs)) w :=
  let '(cs', w') := render_work (WList cs) w in (RHost t p cs', w');
render_work (WNode (RFragment cs)) w :=
  let '(cs', w') := render_work (WList cs) w in (RFragment cs', w');
render_work (WNode (RProvider st c)) w :=
  let '(c', w') := render_work (WNode c) w in (RProvider st c', w');
render_work (WNode (RToaster p o)) w := (RToaster p o, w);
render_work (WNode (RMainProvider c)) w :=
  render_work (WNode (MainProvider c)) w;
render_work (WNode (RReduxProvider c)) w :=
  render_work (WNode (fst (ReduxProvider c w))) (snd (ReduxProvider c w));
render_work (WNode RToastProvider) w :=
  render_work (WNode ToastProvider) w;
render_work (WList []) w := ([], w);
render_work (WList (n :: l)) w :=
  let '(n', w1) := render_work (WNode n) w in
  let '(l', w2) := render_work (WList l) w1 in
  (n' :: l', w2).
Proof.
  all: simpl; lia.
Qed.

Definition render (n : ReactNode) (w : World) : ReactNode * World :=
  render_work (WNode n) w.

Definition render_children (l : list ReactNode) (w : World) : list ReactNode * World :=
  render_work (WList l) w.

(** The world after the root element [n] was rendered [k] times in a row:
    the components keep nothing between renders, so a re-render is the
    same call in the world the render before left. *)
Fixpoint rerender (k : nat) (n : ReactNode) (w : World) : World :=
  match k with
  | 0 => w
  | S k' => rerender k' n (snd (render n w))
  end.

(** ** Rendering when a component of the child subtree may throw *)

(** A render either completes, with a tree and the world it left, or is
    cut short by what a component threw. *)
Inductive Outcome (A : Type) : Type :=
| Rendered (a : A) (w : World)
| Thrown (e : Error).

Arguments Rendered {A} a w.
Arguments Thrown {A} e.

(** The renderer again, with the error channel: an element of an outside
    component that throws ends the render there and then; nothing in the
    renderer catches, so only a component that handles errors itself
    could stop what was thrown on its way up.  The three components are
    called exactly as in [render_work]. *)
Equations? render_checked (raises : string -> option Error) (k : Work) (w : World)
  : Outcome (Out k) by wf (work_weight k) lt :=
render_checked raises (WNode RNull) w := Rendered RNull w;
render_checked raises (WNode (RText s)) w := Rendered (RText s) w;
render_checked raises (WNode (RHost t p cs)) w :=
  match call_raises raises t with
  | Some e => Thrown e
  | None =>
      match render_checked raises (WList cs) w with
      | Rendered cs' w' => Rendered (RHost t p cs') w'
      | Thrown e => Thrown e
      end
  end;
render_checked raises (WNode (RFragment cs)) w :=
  match render_checked raises (WList cs) w with
  | Rendered cs' w' => Rendered (RFragment cs') w'
  | Thrown e => Thrown e
  end;
render_checked raises (WNode (RProvider st c)) w :=
  match render_checked raises (WNode c) w with
  | Rendered c' w' => Rendered (RProvider st c') w'
  | Thrown e => Thrown e
  end;
render_checked raises (WNode (RToaster p o)) w := Rendered (RToaster p o) w;
render_checked raises (WNode (RMainProvider c)) w :=
  render_checked raises (WNode (MainProvider c)) w;
render_checked raises (WNode (RReduxProvider c)) w :=
  render_checked raises (WNode (fst (ReduxProvider c w))) (snd (ReduxProvider c w));
render_checked raises (WNode RToastProvider) w :=
  render_checked raises (WNode ToastProvider) w;
render_checked raises (WList []) w := Rendered [] w;
render_checked raises (WList (n :: l)) w :=
  match render_checked raises (WNode n) w with
  | Thrown e => Thrown e
  | Rendered n' w1 =>
      match render_checked raises (WList l) w1 with
      | Rendered l' w2 => Rendered (n' :: l') w2
      | Thrown e => Thrown e
      end
  end.
Proof.
  all: simpl; lia.
Qed.

Definition render_or_throw (raises : string -> option Error) (n : ReactNode) (w : World)
  : Outcome ReactNode :=
  render_checked raises (WNode n) w.

(** ** The renderer's defining equations, read on [render] *)

Lemma render_leaf (w : World) :
  render RNull w = (RNull, w) /\
  (forall s, render (RText s) w = (RText s, w)) /\
  (forall p o, render (RToaster p o) w = (RToaster p o, w)).
Proof. unfold render. repeat split; intros; simp render_work; reflexivity. Qed.

Lemma render_children_nil (w : World) : render_children [] w = ([], w).
Proof. unfold render_children. simp render_work. reflexivity. Qed.

Lemma render_children_cons (n : ReactNode) (l : list ReactNode) (w : World) :
  render_children (n :: l) w =
  (fst (render n w) :: fst (render_children l (snd (render n w))),
   snd (render_children l (snd (render n w)))).
Proof.
  unfold render_children, render. simp render_work.
  destruct (render_work (WNode n) w) as [n' w1]. simpl.
  destruct (render_work (WList l) w1) as [l' w2]. reflexivity.
Qed.

Lemma render_RHost (t : string) (p : list (string * string)) (cs : list ReactNode) (w : World) :
  render (RHost t p cs) w = (RHost t p (fst (render_children cs w)), snd (render_children cs w)).
Proof.
  unfold render_children, render. simp render_work.
  destruct (render_work (WList cs) w) as [cs' w']. reflexivity.
Qed.

Lemma render_RFragment (cs : list ReactNode) (w : World) :
  render (RFragment cs) w = (RFragment (fst (render_children cs w)), snd (render_children cs w)).
Proof.
  unfold render_children, render. simp render_work.
  destruct (render_work (WList cs) w) as [cs' w']. reflexivity.
Qed.

Lemma render_RProvider (st : AppStore) (c : ReactNode) (w : World) :
  render (RProvider st c) w = (RProvider st (fst (render c w)), snd (render c w)).
Proof.
  unfold render. simp render_work.
  destruct (render_work (WNode c) w) as [c' w']. reflexivity.
Qed.

Lemma render_RMainProvider (c : ReactNode) (w : World) :
  render (RMainProvider c) w = render (MainProvider c) w.
Proof. unfold render. simp render_work. reflexivity. Qed.

Lemma render_RReduxProvider (c : ReactNode) (w : World) :
  render (RReduxProvider c) w =
  render (fst (ReduxProvider c w)) (snd (ReduxProvider c w)).
Proof. unfold render. simp render_work. reflexivity. Qed.

Lemma render_RToastProvider (w : World) :
  render RToastProvider w = (ToastProvider, w).
Proof.
  unfold render. simp render_work. unfold ToastProvider. simp render_work.
  reflexivity.
Qed.

(** What a full render of each component comes to. *)
Lemma render_ReduxProvider_tree (c : ReactNode) (w : World) :
  render (RReduxProvider c) w =
  (RProvider (fst (makeStore w)) (fst (render c (snd (makeStore w)))),
   snd (render c (snd (makeStore w)))).
Proof. rewrite render_RReduxProvider. simpl. apply render_RProvider. Qed.

Lemma render_MainProvider_tree (c : ReactNode) (w : World) :
  render (RMainProvider c) w =
  (RFragment [RProvider (fst (makeStore w)) (fst (render c (snd (makeStore w))));
              ToastProvider],
   snd (render c (snd (makeStore w)))).
Proof.
  rewrite render_RMainProvider. unfold MainProvider.
  rewrite render_RFragment, !render_children_cons, render_children_nil.
  rewrite render_ReduxProvider_tree, render_RToastProvider. reflexivity.
Qed.

(** ** Invariants of rendering *)

(** Rendering only ever adds stores, one per run of [ReduxProvider], each
    as [makeStore] made it; the stores that were there are left alone. *)
Lemma render_work_world (k : Work) (w : World) :
  snd (render_work k w) = w ++ repeat initialCell (redux_renders_work k).
Proof.
  funelim (render_work k w); simp render_work; simpl in *;
    try (rewrite app_nil_r; reflexivity).
  - destruct (render_work (WList cs) w); simpl in *; assumption.
  - destruct (render_work (WList cs) w); simpl in *; assumption.
  - destruct (render_work (WNode c) w); simpl in *; assumption.
  - rewrite H. simpl. rewrite Nat.add_0_r. reflexivity.
  - rewrite H. simpl. rewrite <- app_assoc. reflexivity.
  - destruct (render_work (WNode n) w) as [n' w1]; simpl in *.
    specialize (H0 n' w1).
    destruct (render_work (WList l) w1) as [l' w2]; simpl in *.
    subst. rewrite repeat_app, app_assoc. reflexivity.
Qed.

Lemma render_work_expanded (k : Work) (w : World) :
  expanded_out k (fst (render_work k w)) = true.
Proof.
  funelim (render_work k w); simp render_work; simpl in *; try reflexivity;
    try assumption.
  - destruct (render_work (WList cs) w); simpl in *; assumption.
  - destruct (render_work (WList cs) w); simpl in *; assumption.
  - destruct (render_work (WNode c) w); simpl in *; assumption.
  - destruct (render_work (WNode n) w) as [n' w1]; simpl in *.
    specialize (H0 n' w1).
    destruct (render_work (WList l) w1) as [l' w2]; simpl in *.
    rewrite H, H0. reflexivity.
Qed.

Lemma render_world (n : ReactNode) (w : World) :
  snd (render n w) = w ++ repeat initialCell (redux_renders n).
Proof. apply (render_work_world (WNode n)). Qed.

Lemma render_expanded (n : ReactNode) (w : World) :
  expanded (fst (render n w)) = true.
Proof. apply (render_work_expanded (WNode n)). Qed.

(** Elements with no function component left render to themselves and
    leave the world alone. *)
Lemma render_expanded_id (n : ReactNode) :
  expanded n = true -> forall w : World, render n w = (n, w).
Proof.
  induction n using ReactNode_nested_ind; simpl; intros He w;
    try discriminate; try (apply render_leaf).
  - rewrite render_RHost.
    assert (Hcs : render_children cs w = (cs, w)).
    { revert w. induction H as [|x r Hx Hr IH]; intros w.
      - apply render_children_nil.
      - simpl in He. apply andb_prop in He as [He1 He2].
        rewrite render_children_cons, (Hx He1), (IH He2). reflexivity. }
    rewrite Hcs. reflexivity.
  - rewrite render_RFragment.
    assert (Hcs : render_children cs w = (cs, w)).
    { revert w. induction H as [|x r Hx Hr IH]; intros w.
      - apply render_children_nil.
      - simpl in He. apply andb_prop in He as [He1 He2].
        rewrite render_children_cons, (Hx He1), (IH He2). reflexivity. }
    rewrite Hcs. reflexivity.
  - rewrite render_RProvider, (IHn He). reflexivity.
Qed.

(** Rendering what was rendered changes nothing. *)
Lemma render_idempotent (n : ReactNode) (w w' : World) :
  render (fst (render n w)) w' = (fst (render n w), w').
Proof. apply render_expanded_id, render_expanded. Qed.

(** ** Dispatch *)

Lemma actions_dispatched_app (w1 w2 : World) :
  actions_dispatched (w1 ++ w2) = actions_dispatched w1 + actions_dispatched w2.
Proof. unfold actions_dispatched. rewrite map_app, list_sum_app. reflexivity. Qed.

Lemma actions_dispatched_initial (k : nat) :
  actions_dispatched (repeat initialCell k) = 0.
Proof. induction k as [|k IH]; [reflexivity | exact IH]. Qed.

(** A dispatch into a store of the heap is recorded. *)
Lemma dispatch_recorded (store : AppStore) (a : Action) (w : World) :
  store < List.length w ->
  actions_dispatched (dispatch store a w) = S (actions_dispatched w).
Proof.
  intros Hlt. unfold dispatch.
  destruct (nth_error w store) as [cell|] eqn:Hcell.
  - apply nth_error_split in Hcell as (l1 & l2 & Hw & Hlen).
    subst w store.
    assert (Hfirst : firstn (List.length l1) (l1 ++ cell :: l2) = l1).
    { clear. induction l1 as [|x l1 IH]; simpl; [reflexivity | now rewrite IH]. }
    assert (Hskip : skipn (S (List.length l1)) (l1 ++ cell :: l2) = l2).
    { clear. induction l1 as [|x l1 IH]; [reflexivity | exact IH]. }
    rewrite Hfirst, Hskip.
    change (?x :: l2) with ([x] ++ l2).
    rewrite !actions_dispatched_app. unfold actions_dispatched at 2 5. simpl.
    rewrite length_app. simpl. lia.
  - apply nth_error_None in Hcell. lia.
Qed.

(** Had [ReduxProvider] dispatched into the store it made (the hydration
    of an initial user), the heap would show it. *)
Lemma hydration_would_be_recorded (c : ReactNode) (a : Action) (w : World) :
  actions_dispatched (dispatch (fst (makeStore w)) a (snd (ReduxProvider c w))) =
  S (actions_dispatched w).
Proof.
  unfold ReduxProvider. cbn [makeStore fst snd].
  rewrite dispatch_recorded by (rewrite length_app; simpl; lia).
  rewrite actions_dispatched_app. unfold actions_dispatched at 2. simpl. lia.
Qed.

(** ** The provider composition and its parts *)

(** C1: re-rendering the provider composition with the same child subtree
    does not keep the store: from an empty heap the first render provides
    store 0, the re-render constructs and provides store 1, and two stores
    exist afterwards. *)
Theorem MainProvider_rerender_replaces_store :
  let app := RText "app" in
  let first := render (RMainProvider app) [] in
  let second := render (RMainProvider app) (snd first) in
  providers (fst first) = [0] /\
  providers (fst second) = [1] /\
  List.length (snd second) = 2.
Proof.
  cbv zeta. rewrite !render_MainProvider_tree.
  cbn [fst snd makeStore List.length app].
  destruct (render_leaf [initialCell]) as (_ & Ht & _). rewrite Ht.
  cbn [fst snd makeStore List.length app].
  destruct (render_leaf [initialCell; initialCell]) as (_ & Ht2 & _).
  rewrite Ht2. repeat split.
Qed.

(** C2: every render of [ReduxProvider] calls [makeStore] and hands the
    store it got to the [<Provider>]: the store was not in the heap before
    the render, is there in its initial state after it, and a later render
    (whatever was constructed in between) provides a different store.  The
    same holds when the elements are rendered in full. *)
Theorem ReduxProvider_new_store_every_render (c1 c2 : ReactNode) (w later : World) :
  let first := ReduxProvider c1 w in
  let second := ReduxProvider c2 (snd first ++ later) in
  let first_tree := render (RReduxProvider c1) w in
  let second_tree := render (RReduxProvider c2) (snd first_tree ++ later) in
  first = (RProvider (fst (makeStore w)) c1, snd (makeStore w)) /\
  nth_error w (fst (makeStore w)) = None /\
  nth_error (snd first) (fst (makeStore w)) = Some initialCell /\
  List.length (snd first) = S (List.length w) /\
  provided_store (fst first) <> provided_store (fst second) /\
  provided_store (fst first_tree) = provided_store (fst first) /\
  provided_store (fst first_tree) <> provided_store (fst second_tree).
Proof.
  cbv zeta. rewrite !render_ReduxProvider_tree, render_world.
  unfold ReduxProvider. simpl. rewrite !length_app, repeat_length. simpl.
  repeat split.
  - apply nth_error_None. lia.
  - rewrite nth_error_app2 by lia. rewrite Nat.sub_diag. reflexivity.
  - lia.
  - intros E. injection E. lia.
  - intros E. injection E. lia.
Qed.

(** C3: [MainProvider] returns a fragment with two children, the
    [ReduxProvider] element around the child subtree and the
    [ToastProvider] element.  Rendered, the fragment holds the
    [<Provider>] around the rendered subtree and, next to it, the
    notification surface; the path to the subtree goes through the
    [<Provider>] and not through the notification surface, which is the
    same whatever the subtree. *)
Theorem MainProvider_wraps_children_beside_toasts (c : ReactNode) (w : World) :
  let out := fst (render (RMainProvider c) w) in
  let c' := fst (render c (snd (makeStore w))) in
  MainProvider c = RFragment [RReduxProvider c; RToastProvider] /\
  children_of out = [RProvider (fst (makeStore w)) c'; ToastProvider] /\
  enclosing [0; 0] out = Some ([fst (makeStore w)], c') /\
  subtree_at [0] out = Some (RProvider (fst (makeStore w)) c') /\
  subtree_at [1] out = Some ToastProvider /\
  providers ToastProvider = [] /\
  nodes ToastProvider = ToastProvider :: children_of ToastProvider.
Proof.
  cbv zeta. rewrite render_MainProvider_tree. repeat split.
Qed.

(** C4: in the rendered provider composition the child subtree sits under
    exactly one [<Provider>]: the path to it passes one provider, and the
    tree has one provider more than the rendered subtree itself. *)
Theorem MainProvider_exactly_one_provider (c : ReactNode) (w : World) :
  let out := fst (render (RMainProvider c) w) in
  let c' := fst (render c (snd (makeStore w))) in
  enclosing [0; 0] out = Some ([fst (makeStore w)], c') /\
  providers out = fst (makeStore w) :: providers c' /\
  List.length (providers out) = 1 + List.length (providers c') /\
  providers (MainProvider c) = providers c.
Proof.
  cbv zeta. rewrite render_MainProvider_tree. simpl.
  rewrite !app_nil_r. repeat split.
Qed.

(** C5: the notification surface renders one toast host, at top-center,
    with a duration of 4000 and the fixed style; that host is the last
    toast host of a rendered provider composition. *)
Theorem ToastProvider_configuration (c : ReactNode) (w : World) :
  let host :=
    ("top-center",
     {| duration := 4000;
        style := {| background := "#fff";
                    color := "#333";
                    border := "1px solid #319691";
                    padding := "12px 16px" |} |}) in
  toasters ToastProvider = [host] /\
  toasters (fst (render RToastProvider w)) = [host] /\
  toasters (fst (render (RMainProvider c) w)) =
    toasters (fst (render c (snd (makeStore w)))) ++ [host].
Proof.
  cbv zeta. rewrite render_RToastProvider, render_MainProvider_tree.
  simpl. repeat split.
Qed.

(** C6: [ReduxProvider] dispatches nothing: the store it provides is the
    one [makeStore] made, holding the initial state with no action
    recorded, the stores that existed are as they were, and the number of
    dispatched actions is what it was, also after the full render. *)
Theorem ReduxProvider_no_hydration (c : ReactNode) (w : World) :
  let r := ReduxProvider c w in
  let full := render (RReduxProvider c) w in
  provided_store (fst r) = Some (List.length w) /\
  snd r = w ++ [initialCell] /\
  nth_error (snd r) (List.length w) =
    Some {| getState := initialState; dispatched := [] |} /\
  firstn (List.length w) (snd r) = w /\
  actions_dispatched (snd r) = actions_dispatched w /\
  snd full = w ++ repeat initialCell (S (redux_renders c)) /\
  actions_dispatched (snd full) = actions_dispatched w.
Proof.
  cbv zeta. rewrite render_world. unfold ReduxProvider. cbn [makeStore fst snd].
  repeat split.
  - rewrite nth_error_app2 by lia. rewrite Nat.sub_diag. reflexivity.
  - rewrite firstn_app, firstn_all, Nat.sub_diag. simpl. apply app_nil_r.
  - rewrite actions_dispatched_app. unfold actions_dispatched at 2. simpl. lia.
  - rewrite actions_dispatched_app, actions_dispatched_initial. lia.
Qed.

(** C7: [ToastProvider] takes no input and keeps no state: rendered in
    any two worlds it gives the same tree, the one the component returns,
    and it leaves the world as it found it. *)
Theorem ToastProvider_same_output (w1 w2 : World) :
  fst (render RToastProvider w1) = fst (render RToastProvider w2) /\
  fst (render RToastProvider w1) = ToastProvider /\
  snd (render RToastProvider w1) = w1.
Proof. rewrite !render_RToastProvider. repeat split. Qed.

(** *** What is thrown, and by whom *)

Lemma render_or_throw_RProvider (raises : string -> option Error)
    (st : AppStore) (c : ReactNode) (w : World) :
  render_or_throw raises (RProvider st c) w =
  match render_or_throw raises c w with
  | Rendered c' w' => Rendered (RProvider st c') w'
  | Thrown e => Thrown e
  end.
Proof. unfold render_or_throw. simp render_checked. reflexivity. Qed.

Lemma render_or_throw_RToastProvider (raises : string -> option Error) (w : World) :
  render_or_throw raises RToastProvider w = Rendered ToastProvider w.
Proof.
  unfold render_or_throw. simp render_checked. unfold ToastProvider.
  simp render_checked. reflexivity.
Qed.

Lemma render_or_throw_RReduxProvider (raises : string -> option Error)
    (c : ReactNode) (w : World) :
  render_or_throw raises (RReduxProvider c) w =
  match render_or_throw raises c (snd (makeStore w)) with
  | Rendered c' w' => Rendered (RProvider (fst (makeStore w)) c') w'
  | Thrown e => Thrown e
  end.
Proof.
  unfold render_or_throw at 1. simp render_checked.
  apply (render_or_throw_RProvider raises (fst (makeStore w)) c (snd (makeStore w))).
Qed.

Lemma render_or_throw_RMainProvider (raises : string -> option Error)
    (c : ReactNode) (w : World) :
  render_or_throw raises (RMainProvider c) w =
  match render_or_throw raises c (snd (makeStore w)) with
  | Rendered c' w' =>
      Rendered (RFragment [RProvider (fst (makeStore w)) c'; ToastProvider]) w'
  | Thrown e => Thrown e
  end.
Proof.
  unfold render_or_throw. simp render_checked. unfold MainProvider.
  simp render_checked. unfold ReduxProvider. cbn [makeStore fst snd].
  simp render_checked.
  destruct (render_checked raises (WNode c) (w ++ [initialCell])) as [c' w' | e];
    [| reflexivity].
  simp render_checked. unfold ToastProvider. simp render_checked.
  reflexivity.
Qed.

(** Where no outside component throws, the render completes, with the
    tree and the world of [render_work]. *)
Lemma render_checked_no_throw (k : Work) (w : World) :
  render_checked (fun _ => None) k w =
  Rendered (fst (render_work k w)) (snd (render_work k w)).
Proof.
  funelim (render_work k w); simp render_checked render_work;
    try reflexivity; try assumption.
  - unfold call_raises. destruct (intrinsic t); rewrite H;
      destruct (render_work (WList cs) w); reflexivity.
  - rewrite H. destruct (render_work (WList cs) w); reflexivity.
  - rewrite H. destruct (render_work (WNode c) w); reflexivity.
  - rewrite H. destruct (render_work (WNode n) w) as [n' w1]. simpl.
    rewrite (H0 n' w1). destruct (render_work (WList l) w1); reflexivity.
Qed.

(** C8: none of the three components throws or handles an error of its
    own.  Each returns an element for every child subtree; rendering the
    notification surface always completes; rendering [ReduxProvider] or
    the provider composition completes with their element whenever
    rendering the child subtree completes, and when a component of the
    child subtree throws, the same error comes out of them, neither caught
    nor replaced.  Where nothing in the child subtree throws the render
    is the one of [render]. *)
Theorem providers_render_without_error
    (raises : string -> option Error) (c : ReactNode) (w : World) :
  isValidElement (MainProvider c) = true /\
  isValidElement (fst (ReduxProvider c w)) = true /\
  isValidElement ToastProvider = true /\
  render_or_throw raises RToastProvider w = Rendered ToastProvider w /\
  render_or_throw raises (RReduxProvider c) w =
    match render_or_throw raises c (snd (makeStore w)) with
    | Rendered c' w' => Rendered (RProvider (fst (makeStore w)) c') w'
    | Thrown e => Thrown e
    end /\
  render_or_throw raises (RMainProvider c) w =
    match render_or_throw raises c (snd (makeStore w)) with
    | Rendered c' w' =>
        Rendered (RFragment [RProvider (fst (makeStore w)) c'; ToastProvider]) w'
    | Thrown e => Thrown e
    end /\
  render_or_throw (fun _ => None) (RMainProvider c) w =
    Rendered (fst (render (RMainProvider c) w)) (snd (render (RMainProvider c) w)).
Proof.
  split; [reflexivity |].
  split; [reflexivity |].
  split; [reflexivity |].
  split; [apply render_or_throw_RToastProvider |].
  split; [apply render_or_throw_RReduxProvider |].
  split; [apply render_or_throw_RMainProvider |].
  apply (render_checked_no_throw (WNode (RMainProvider c))).
Qed.

(** C9: the child subtree goes through as it is: [MainProvider] hands it
    to the [ReduxProvider] element, [ReduxProvider] makes it the one child
    of the [<Provider>], and in the rendered tree the one child of the
    [<Provider>] is the rendering of the subtree in the world right after
    the store was made. *)
Theorem children_passed_through (c : ReactNode) (w : World) :
  let out := fst (render (RMainProvider c) w) in
  nth_error (children_of (MainProvider c)) 0 = Some (RReduxProvider c) /\
  children_of (RReduxProvider c) = [c] /\
  fst (ReduxProvider c w) = RProvider (fst (makeStore w)) c /\
  children_of (fst (ReduxProvider c w)) = [c] /\
  subtree_at [0; 0] out = Some (fst (render c (snd (makeStore w)))) /\
  option_map children_of (subtree_at [0] out) =
    Some [fst (render c (snd (makeStore w)))].
Proof.
  cbv zeta. rewrite render_MainProvider_tree. repeat split.
Qed.

(** C10: in the fragment [MainProvider] returns the [ReduxProvider]
    element comes first and the [ToastProvider] element second, and in the
    rendered tree every node of the wrapped subtree comes before the nodes
    of the notification surface in document order. *)
Theorem MainProvider_toasts_after_children (c : ReactNode) (w : World) :
  let out := fst (render (RMainProvider c) w) in
  let wrapped := RProvider (fst (makeStore w)) (fst (render c (snd (makeStore w)))) in
  nth_error (children_of (MainProvider c)) 0 = Some (RReduxProvider c) /\
  nth_error (children_of (MainProvider c)) 1 = Some RToastProvider /\
  List.length (children_of (MainProvider c)) = 2 /\
  children_of out = [wrapped; ToastProvider] /\
  nodes out = out :: nodes wrapped ++ nodes ToastProvider.
Proof.
  cbv zeta. rewrite render_MainProvider_tree. repeat split.
Qed.

(** ** The components under composition *)

Lemma render_length (n : ReactNode) (w : World) :
  List.length (snd (render n w)) = List.length w + redux_renders n.
Proof. rewrite render_world, length_app, repeat_length. reflexivity. Qed.

(** In a tree that holds no [<Provider>] of its own, the providers of the
    rendering hold the stores made during the render, in the order made. *)
Lemma render_providers_fresh (n : ReactNode) :
  forall w : World,
    providers n = [] ->
    providers (fst (render n w)) = seq (List.length w) (redux_renders n).
Proof.
  assert (Hlist : forall cs : list ReactNode,
    Forall (fun n => forall w : World, providers n = [] ->
      providers (fst (render n w)) = seq (List.length w) (redux_renders n)) cs ->
    forall w : World, flat_map providers cs = [] ->
      flat_map providers (fst (render_children cs w)) =
      seq (List.length w) (redux_renders_list cs)).
  { intros cs Hcs. induction Hcs as [|x r Hx Hr IH]; intros w He.
    - rewrite render_children_nil. reflexivity.
    - simpl in He. apply app_eq_nil in He as [He1 He2].
      rewrite render_children_cons. simpl.
      rewrite (Hx w He1), (IH _ He2), render_length, seq_app. reflexivity. }
  induction n using ReactNode_nested_ind; intros w He.
  - destruct (render_leaf w) as (E & _ & _). rewrite E. reflexivity.
  - destruct (render_leaf w) as (_ & E & _). rewrite E. reflexivity.
  - rewrite render_RHost. simpl in *. apply (Hlist cs H w He).
  - rewrite render_RFragment. simpl in *. apply (Hlist cs H w He).
  - discriminate He.
  - destruct (render_leaf w) as (_ & _ & E). rewrite E. reflexivity.
  - rewrite render_MainProvider_tree. simpl in *.
    rewrite app_nil_r, (IHn _ He), length_app. simpl.
    rewrite Nat.add_1_r. reflexivity.
  - rewrite render_ReduxProvider_tree. simpl in *.
    rewrite (IHn _ He), length_app. simpl.
    rewrite Nat.add_1_r. reflexivity.
  - rewrite render_RToastProvider. reflexivity.
Qed.

(** X1: rendering any tree leaves the stores that exist as they are and
    adds one store per run of [ReduxProvider], each in its initial state;
    no action is dispatched on the way. *)
Theorem render_only_adds_initial_stores (n : ReactNode) (w : World) :
  snd (render n w) = w ++ repeat initialCell (redux_renders n) /\
  firstn (List.length w) (snd (render n w)) = w /\
  List.length (snd (render n w)) = List.length w + redux_renders n /\
  actions_dispatched (snd (render n w)) = actions_dispatched w.
Proof.
  rewrite render_world. repeat split.
  - rewrite firstn_app, firstn_all, Nat.sub_diag. simpl. apply app_nil_r.
  - rewrite length_app, repeat_length. reflexivity.
  - rewrite actions_dispatched_app, actions_dispatched_initial. lia.
Qed.

(** X2: when the tree handed to the renderer holds no [<Provider>] of its
    own, the providers of the rendered tree hold, in document order, the
    stores made during this render, numbered from the first free one. *)
Theorem rendered_providers_in_construction_order (n : ReactNode) (w : World) :
  providers n = [] ->
  providers (fst (render n w)) = seq (List.length w) (redux_renders n).
Proof. intros He. apply render_providers_fresh, He. Qed.

(** X3: under the same condition no two providers of the rendered tree
    share a store, none holds a store that existed before the render, and
    each store provided is in the heap, in its initial state, when the
    render is over. *)
Theorem rendered_providers_distinct_initial (n : ReactNode) (w : World) :
  providers n = [] ->
  NoDup (providers (fst (render n w))) /\
  Forall (fun st => nth_error w st = None /\
                    nth_error (snd (render n w)) st = Some initialCell)
         (providers (fst (render n w))).
Proof.
  intros He. rewrite (render_providers_fresh n w He), render_world. split.
  - apply seq_NoDup.
  - apply Forall_forall. intros st Hin. apply in_seq in Hin. split.
    + apply nth_error_None. lia.
    + rewrite nth_error_app2 by lia. apply nth_error_repeat. lia.
Qed.

(** X4: every toast host of a rendered tree is one the tree already held
    or the host of [ToastProvider], and the rendering has one host more
    per run of [ToastProvider]. *)
Theorem rendered_toast_hosts (n : ReactNode) (w : World) :
  Forall (fun host => In host (toasters n) \/ In host (toasters ToastProvider))
         (toasters (fst (render n w))) /\
  List.length (toasters (fst (render n w))) =
    List.length (toasters n) + toast_renders n.
Proof.
  revert w.
  assert (Hlist : forall cs : list ReactNode,
    Forall (fun n => forall w : World,
      Forall (fun host => In host (toasters n) \/ In host (toasters ToastProvider))
             (toasters (fst (render n w))) /\
      List.length (toasters (fst (render n w))) =
        List.length (toasters n) + toast_renders n) cs ->
    forall w : World,
      Forall (fun host => In host (flat_map toasters cs) \/
                          In host (toasters ToastProvider))
             (flat_map toasters (fst (render_children cs w))) /\
      List.length (flat_map toasters (fst (render_children cs w))) =
        List.length (flat_map toasters cs) + toast_renders_list cs).
  { intros cs Hcs. induction Hcs as [|x r Hx Hr IH]; intros w.
    - rewrite render_children_nil. simpl. split; [constructor | reflexivity].
    - rewrite render_children_cons. simpl.
      destruct (Hx w) as [Hx1 Hx2].
      destruct (IH (snd (render x w))) as [IH1 IH2]. split.
      + apply Forall_app. split.
        * eapply Forall_impl; [| exact Hx1]. simpl. intros a [Ha | Ha].
          -- left. apply in_or_app. left. exact Ha.
          -- right. exact Ha.
        * eapply Forall_impl; [| exact IH1]. simpl. intros a [Ha | Ha].
          -- left. apply in_or_app. right. exact Ha.
          -- right. exact Ha.
      + rewrite !length_app, Hx2, IH2. lia. }
  induction n using ReactNode_nested_ind; intros w.
  - destruct (render_leaf w) as (E & _ & _). rewrite E. simpl.
    split; [constructor | reflexivity].
  - destruct (render_leaf w) as (_ & E & _). rewrite E. simpl.
    split; [constructor | reflexivity].
  - rewrite render_RHost. apply (Hlist cs H w).
  - rewrite render_RFragment. apply (Hlist cs H w).
  - rewrite render_RProvider. apply IHn.
  - destruct (render_leaf w) as (_ & _ & E). rewrite E. simpl. split.
    + repeat constructor.
    + reflexivity.
  - rewrite render_MainProvider_tree.
    destruct (IHn (snd (makeStore w))) as [IH1 IH2].
    cbn [fst toasters flat_map]. rewrite app_nil_r. split.
    + apply Forall_app. split; [exact IH1 |].
      apply Forall_forall. intros a Ha. right. exact Ha.
    + rewrite length_app, IH2. simpl. lia.
  - rewrite render_ReduxProvider_tree. apply IHn.
  - rewrite render_RToastProvider. simpl. split.
    + constructor; [right; left; reflexivity | constructor].
    + reflexivity.
Qed.

(** X5: the components read no store: the rendered tree is the same in
    any two worlds that hold the same number of stores, whatever the
    states of these stores and the actions dispatched into them. *)
Theorem render_reads_no_store (n : ReactNode) (w1 w2 : World) :
  List.length w1 = List.length w2 ->
  fst (render n w1) = fst (render n w2).
Proof.
  revert w1 w2.
  assert (Hlist : forall cs : list ReactNode,
    Forall (fun n => forall w1 w2 : World, List.length w1 = List.length w2 ->
      fst (render n w1) = fst (render n w2)) cs ->
    forall w1 w2 : World, List.length w1 = List.length w2 ->
      fst (render_children cs w1) = fst (render_children cs w2)).
  { intros cs Hcs. induction Hcs as [|x r Hx Hr IH]; intros w1 w2 Hlen.
    - rewrite !render_children_nil. reflexivity.
    - rewrite !render_children_cons. simpl.
      rewrite (Hx w1 w2 Hlen).
      rewrite (IH (snd (render x w1)) (snd (render x w2))).
      + reflexivity.
      + rewrite !render_length, Hlen. reflexivity. }
  induction n using ReactNode_nested_ind; intros w1 w2 Hlen.
  - destruct (render_leaf w1) as (E1 & _ & _), (render_leaf w2) as (E2 & _ & _).
    rewrite E1, E2. reflexivity.
  - destruct (render_leaf w1) as (_ & E1 & _), (render_leaf w2) as (_ & E2 & _).
    rewrite E1, E2. reflexivity.
  - rewrite !render_RHost. simpl. rewrite (Hlist cs H w1 w2 Hlen). reflexivity.
  - rewrite !render_RFragment. simpl. rewrite (Hlist cs H w1 w2 Hlen). reflexivity.
  - rewrite !render_RProvider. simpl. rewrite (IHn w1 w2 Hlen). reflexivity.
  - destruct (render_leaf w1) as (_ & _ & E1), (render_leaf w2) as (_ & _ & E2).
    rewrite E1, E2. reflexivity.
  - rewrite !render_MainProvider_tree. simpl. rewrite Hlen.
    rewrite (IHn (w1 ++ [initialCell]) (w2 ++ [initialCell])).
    + reflexivity.
    + rewrite !length_app, Hlen. reflexivity.
  - rewrite !render_ReduxProvider_tree. simpl. rewrite Hlen.
    rewrite (IHn (w1 ++ [initialCell]) (w2 ++ [initialCell])).
    + reflexivity.
    + rewrite !length_app, Hlen. reflexivity.
  - rewrite !render_RToastProvider. reflexivity.
Qed.

(** X6: a child subtree in which no component of this repository occurs
    comes out of the provider composition as it went in: the rendered
    tree is the fragment of a provider around that very subtree and the
    notification surface, and the one store of the provider is the one
    store made. *)
Theorem MainProvider_keeps_plain_children (c : ReactNode) (w : World) :
  expanded c = true ->
  render (RMainProvider c) w =
  (RFragment [RProvider (List.length w) c; ToastProvider], w ++ [initialCell]).
Proof.
  intros He. rewrite render_MainProvider_tree.
  rewrite (render_expanded_id c He). reflexivity.
Qed.

(** X7: re-rendering accumulates stores: after [k] renders of the provider
    composition the heap holds [k] times the stores of one render more
    than before, all in their initial state, and the next render provides
    the store after these. *)
Theorem MainProvider_rerenders_accumulate_stores (k : nat) (c : ReactNode) (w : World) :
  rerender k (RMainProvider c) w =
    w ++ repeat initialCell (k * S (redux_renders c)) /\
  provided_store
    (fst (render (RReduxProvider c) (rerender k (RMainProvider c) w))) =
    Some (List.length w + k * S (redux_renders c)) /\
  nth_error (children_of (fst (render (RMainProvider c) (rerender k (RMainProvider c) w)))) 0 =
    Some (fst (render (RReduxProvider c) (rerender k (RMainProvider c) w))).
Proof.
  assert (Hw : forall k w, rerender k (RMainProvider c) w =
                           w ++ repeat initialCell (k * S (redux_renders c))).
  { clear. intros k. induction k as [|k IH]; intros w.
    - simpl. rewrite app_nil_r. reflexivity.
    - cbn [rerender]. rewrite IH, render_world, <- app_assoc, <- repeat_app.
      reflexivity. }
  rewrite Hw, render_MainProvider_tree, render_ReduxProvider_tree.
  cbn [fst snd makeStore provided_store children_of nth_error].
  rewrite length_app, repeat_length. repeat split.
Qed.

(** X8: a provider composition inside a provider composition: the inner
    subtree sits under two providers, the outer one with the store made
    first and the inner one with the store made next, and the stores made
    for the subtree itself come after both. *)
Theorem MainProvider_nested (c : ReactNode) (w : World) :
  let out := fst (render (RMainProvider (RMainProvider c)) w) in
  let c' := fst (render c (w ++ [initialCell; initialCell])) in
  enclosing [0; 0; 0; 0] out =
    Some ([List.length w; S (List.length w)], c') /\
  providers out = List.length w :: S (List.length w) :: providers c' /\
  snd (render (RMainProvider (RMainProvider c)) w) =
    w ++ repeat initialCell (2 + redux_renders c).
Proof.
  cbv zeta. rewrite render_world, !render_MainProvider_tree.
  cbn [fst snd makeStore]. rewrite <- app_assoc, length_app. simpl.
  rewrite !app_nil_r, Nat.add_1_r. repeat split.
Qed.

End Providers.

(** ** The renderer at work on concrete trees *)

(** A page under the provider composition, with a counter as root state. *)
Example render_page :
  render nat string 0
    (RMainProvider (RHost "main" [("class", "page")] [RText "Liftly"])) [] =
  (RFragment
     [RProvider 0 (RHost "main" [("class", "page")] [RText "Liftly"]);
      RHost "div" []
        [RToaster "top-center"
           {| duration := 4000;
              style := {| background := "#fff";
                          color := "#333";
                          border := "1px solid #319691";
                          padding := "12px 16px" |} |}]],
   [{| getState := 0; dispatched := [] |}]).
Proof. reflexivity. Qed.

(** A composition inside a composition: the outer [ReduxProvider] runs
    first, so the outer store is the older one. *)
Example render_nested_composition :
  let r := render nat string 0 (RMainProvider (RMainProvider (RText "app"))) [] in
  providers (fst r) = [0; 1] /\
  List.length (toasters (fst r)) = 2 /\
  List.length (snd r) = 2.
Proof. repeat split. Qed.

(** Two siblings that each mount a [ReduxProvider] get two stores. *)
Example render_two_redux_providers :
  providers
    (fst (render nat string 0
            (RFragment [RReduxProvider RNull; RText "-"; RReduxProvider RNull])
            [])) = [0; 1].
Proof. reflexivity. Qed.

(** What a dispatch does to the heap. *)
Example dispatch_example :
  dispatch nat string (fun n _ => S n) 0 "user/setUser"
    (snd (makeStore nat string 0 [])) =
  [{| getState := 1; dispatched := ["user/setUser"] |}].
Proof. reflexivity. Qed.

(** ** The hypotheses above, met *)

Lemma rendered_providers_in_construction_order_witness :
  providers (RFragment [RMainProvider (RText "a"); RReduxProvider RNull]) = [] /\
  providers
    (fst (render nat string 0
            (RFragment [RMainProvider (RText "a"); RReduxProvider RNull]) [])) =
  seq 0 2.
Proof.
  split; [reflexivity |].
  apply (rendered_providers_in_construction_order nat string 0
           (RFragment [RMainProvider (RText "a"); RReduxProvider RNull]) []).
  reflexivity.
Defined.

Lemma rendered_providers_distinct_initial_witness :
  providers (RMainProvider (RMainProvider (RText "a"))) = [] /\
  NoDup (providers
           (fst (render nat string 0 (RMainProvider (RMainProvider (RText "a"))) []))).
Proof.
  split; [reflexivity |].
  apply (rendered_providers_distinct_initial nat string 0
           (RMainProvider (RMainProvider (RText "a"))) []).
  reflexivity.
Defined.

Lemma render_reads_no_store_witness :
  List.length [Build_StoreCell nat string 7 ["user/setUser"]] =
  List.length [Build_StoreCell nat string 0 []] /\
  fst (render nat string 0 (RMainProvider (RText "a"))
         [Build_StoreCell nat string 7 ["user/setUser"]]) =
  fst (render nat string 0 (RMainProvider (RText "a"))
         [Build_StoreCell nat string 0 []]).
Proof.
  split; [reflexivity |].
  apply (render_reads_no_store nat string 0 (RMainProvider (RText "a"))).
  reflexivity.
Defined.

Lemma MainProvider_keeps_plain_children_witness :
  expanded (RHost "main" [] [RText "Liftly"]) = true /\
  render nat string 0 (RMainProvider (RHost "main" [] [RText "Liftly"])) [] =
  (RFragment [RProvider 0 (RHost "main" [] [RText "Liftly"]);
              ToastProvider],
   [initialCell nat string 0]).
Proof.
  split; [reflexivity |].
  apply (MainProvider_keeps_plain_children nat string 0
           (RHost "main" [] [RText "Liftly"]) []).
  reflexivity.
Defined.

(** ** A child that throws *)

(** The broken component under the provider composition: what it throws
    comes out of the composition. *)
Example render_broken_child :
  render_or_throw nat string 0 broken_raises
    (RMainProvider (RHost "main" [] [RText "Liftly"; RHost "Broken" [] []])) [] =
  @Thrown nat string ReactNode "boom".
Proof. reflexivity. Qed.

(** The same page without the broken component renders. *)
Example render_sound_child :
  render_or_throw nat string 0 broken_raises
    (RMainProvider (RHost "main" [] [RText "Liftly"])) [] =
  @Rendered nat string ReactNode
    (RFragment [RProvider 0 (RHost "main" [] [RText "Liftly"]); ToastProvider])
    [initialCell nat string 0].
Proof. reflexivity. Qed.

(** An intrinsic element never throws, whatever [raises] says of its tag. *)
Example render_intrinsic_never_throws :
  render_or_throw nat string 0 (fun _ => Some "boom") RToastProvider [] =
  @Rendered nat string ReactNode ToastProvider [].
Proof. reflexivity. Qed.
